(** * sample_bpe.py: the byte-pair-encoding sample driver

    The script under verification is eight lines long:

      from transformers import GPT2TokenizerFast

      tokenizer = GPT2TokenizerFast(vocab_file='../dataset/BPE/vocab.json'
                                    , merges_file="../dataset/BPE/merges.txt"
                                    )

      a = tokenizer.encode("Hello, world!")
      print(a)

    It is embedded as a computation in a state-and-exception monad.  The
    tokenizer library it calls is not part of the repository: it enters the
    development as a record of operations ([Library]) that every theorem
    quantifies over, so that what is proved is what the driver does with
    whatever the library answers. *)

From Stdlib Require Import String Ascii List ZArith Lia Bool.
From Stdlib Require Import DecimalString DecimalZ.
Import ListNotations.
Local Open Scope string_scope.
Local Open Scope Z_scope.

(** ** Python values and outcomes *)

(** A Python call either returns a value or raises. *)
Inductive result (E A : Type) : Type :=
| Ok (a : A)
| Raise (e : E).
Arguments Ok {E A} a.
Arguments Raise {E A} e.

(** ** The process environment

    What an invocation of the interpreter can observe from outside: the
    command line, the environment variables, standard input, and the files
    reachable from the working directory (relative path to contents). *)
Record OS : Type := mkOS {
  argv : list string;
  environ : string -> option string;
  stdin : string;
  files : string -> option string
}.

(** ** The external collaborator

    [transformers.GPT2TokenizerFast] as the script sees it: an import that
    may fail, a constructor taking two paths, and a method [encode].  Each
    operation runs on a hidden library state [LibState] and may change it,
    so no determinism is built into the interface.  Only the constructor
    receives the process environment: it is the call that opens files. *)
Record Library : Type := mkLibrary {
  Handle : Type;
  Exn : Type;
  LibState : Type;
  import_from : string -> string -> LibState -> result Exn unit * LibState;
  construct : OS -> string -> string -> LibState -> result Exn Handle * LibState;
  encode : Handle -> string -> LibState -> result Exn (list Z) * LibState
}.

(** ** What the script does, as observable events *)
Inductive event : Type :=
| Imported (module_name name : string)
| Constructed (vocab_file merges_file : string)
| Encoded (text : string)
| Printed (line : string).

Definition is_print (ev : event) : bool :=
  match ev with Printed _ => true | _ => false end.

(** ** Python's [print] of a list of integers *)

Definition str_int (z : Z) : string := NilEmpty.string_of_int (Z.to_int z).

Fixpoint join (sep : string) (l : list string) : string :=
  match l with
  | [] => ""
  | [x] => x
  | x :: rest => x ++ sep ++ join sep rest
  end.

(** [str(a)] for a list of ints: [[15496, 11, 995, 0]]. *)
Definition str_list (a : list Z) : string :=
  "[" ++ join ", " (map str_int a) ++ "]".

Definition newline : string := String (ascii_of_nat 10) EmptyString.

(** The line [print(a)] writes: [str(a)] followed by a newline. *)
Definition print_line (a : list Z) : string := str_list a ++ newline.

Section Driver.

Variable L : Library.
Variable os : OS.

(** ** The interpreter state: library state, standard output so far, and
    the log of operations performed. *)
Record World : Type := mkWorld {
  lib : LibState L;
  stdout : string;
  log : list event
}.

(** Computations: the state survives a raised exception (what was
    printed before a failure stays printed). *)
Definition Py (A : Type) : Type := World -> result (Exn L) A * World.

Definition ret {A} (a : A) : Py A := fun w => (Ok a, w).

Definition bind {A B} (c : Py A) (k : A -> Py B) : Py B :=
  fun w =>
    match c w with
    | (Ok a, w') => k a w'
    | (Raise e, w') => (Raise e, w')
    end.

Notation "x <- c ;; k" := (bind c (fun x => k))
  (at level 100, c at next level, right associativity).
Notation "c ;; k" := (bind c (fun _ => k))
  (at level 100, right associativity).

(** A call into the library: logged, then answered by the library on its
    own state. *)
Definition call {A} (ev : event)
    (op : LibState L -> result (Exn L) A * LibState L) : Py A :=
  fun w =>
    let (r, s) := op (lib w) in
    (r, mkWorld s (stdout w) (log w ++ [ev])).

(** [from module_name import name] *)
Definition from_import (module_name name : string) : Py unit :=
  call (Imported module_name name) (import_from L module_name name).

(** [GPT2TokenizerFast(vocab_file=..., merges_file=...)] *)
Definition GPT2TokenizerFast (vocab_file merges_file : string) : Py (Handle L) :=
  call (Constructed vocab_file merges_file)
       (construct L os vocab_file merges_file).

(** [tokenizer.encode(text)] *)
Definition tokenizer_encode (tokenizer : Handle L) (text : string)
  : Py (list Z) :=
  call (Encoded text) (encode L tokenizer text).

(** [print(a)] *)
Definition print (a : list Z) : Py unit :=
  fun w =>
    (Ok tt, mkWorld (lib w) (stdout w ++ print_line a)
                    (log w ++ [Printed (print_line a)])).

(** ** The script, line by line *)

Definition vocab_file_arg : string := "../dataset/BPE/vocab.json".
Definition merges_file_arg : string := "../dataset/BPE/merges.txt".
Definition input_text : string := "Hello, world!".

Definition sample_bpe : Py unit :=
  from_import "transformers" "GPT2TokenizerFast" ;;
  tokenizer <- GPT2TokenizerFast vocab_file_arg merges_file_arg ;;
  a <- tokenizer_encode tokenizer input_text ;;
  print a.

(** ** The process around the script

    The interpreter starts with empty output and an empty log; when the
    module body raises, the exception is reported on standard error and
    the exit status is 1, otherwise the status is 0.  Exceptions stand for
    errors: a library that asks the interpreter to exit is not modelled. *)
Record Process : Type := mkProcess {
  exit_code : Z;
  out : string;
  err : option (Exn L);
  trace : list event
}.

Definition initial (s : LibState L) : World := mkWorld s "" [].

Definition python_main (s : LibState L) : Process :=
  match sample_bpe (initial s) with
  | (Ok _, w) => mkProcess 0 (stdout w) None (log w)
  | (Raise e, w) => mkProcess 1 (stdout w) (Some e) (log w)
  end.

End Driver.

Arguments exit_code {L} p.
Arguments out {L} p.
Arguments err {L} p.
Arguments trace {L} p.
Arguments mkProcess {L} exit_code out err trace.

(** The operations the script can perform, in program order. *)
Definition import_event : event := Imported "transformers" "GPT2TokenizerFast".
Definition construct_event : event := Constructed vocab_file_arg merges_file_arg.
Definition encode_event : event := Encoded input_text.
Definition print_event (a : list Z) : event := Printed (print_line a).

(** ** The four ways a run can go

    A big-step description of the process in terms of the library's
    answers: the import raises, or the constructor raises, or [encode]
    raises, or all three return and the result is printed. *)
Inductive runs (L : Library) (os : OS) (s : LibState L) : Process L -> Prop :=
| run_import_raises e s1 :
    import_from L "transformers" "GPT2TokenizerFast" s = (Raise e, s1) ->
    runs L os s (mkProcess 1 "" (Some e) [import_event])
| run_construct_raises s1 e s2 :
    import_from L "transformers" "GPT2TokenizerFast" s = (Ok tt, s1) ->
    construct L os vocab_file_arg merges_file_arg s1 = (Raise e, s2) ->
    runs L os s (mkProcess 1 "" (Some e) [import_event; construct_event])
| run_encode_raises s1 h s2 e s3 :
    import_from L "transformers" "GPT2TokenizerFast" s = (Ok tt, s1) ->
    construct L os vocab_file_arg merges_file_arg s1 = (Ok h, s2) ->
    encode L h input_text s2 = (Raise e, s3) ->
    runs L os s
         (mkProcess 1 "" (Some e) [import_event; construct_event; encode_event])
| run_prints s1 h s2 a s3 :
    import_from L "transformers" "GPT2TokenizerFast" s = (Ok tt, s1) ->
    construct L os vocab_file_arg merges_file_arg s1 = (Ok h, s2) ->
    encode L h input_text s2 = (Ok a, s3) ->
    runs L os s
         (mkProcess 0 (print_line a) None
                    [import_event; construct_event; encode_event; print_event a]).

(** A library call raised [e] while performing [ev]. *)
Inductive raised_at (L : Library) (os : OS) (s : LibState L)
  : event -> Exn L -> Prop :=
| import_raised e s1 :
    import_from L "transformers" "GPT2TokenizerFast" s = (Raise e, s1) ->
    raised_at L os s import_event e
| construct_raised s1 e s2 :
    import_from L "transformers" "GPT2TokenizerFast" s = (Ok tt, s1) ->
    construct L os vocab_file_arg merges_file_arg s1 = (Raise e, s2) ->
    raised_at L os s construct_event e
| encode_raised s1 h s2 e s3 :
    import_from L "transformers" "GPT2TokenizerFast" s = (Ok tt, s1) ->
    construct L os vocab_file_arg merges_file_arg s1 = (Ok h, s2) ->
    encode L h input_text s2 = (Raise e, s3) ->
    raised_at L os s encode_event e.

(** The import, the constructor and [encode] all returned; [a] is what
    [encode] returned. *)
Definition completes (L : Library) (os : OS) (s : LibState L) (a : list Z) : Prop :=
  exists s1 h s2 s3,
    import_from L "transformers" "GPT2TokenizerFast" s = (Ok tt, s1) /\
    construct L os vocab_file_arg merges_file_arg s1 = (Ok h, s2) /\
    encode L h input_text s2 = (Ok a, s3).

(** ** Reading a printed line back

    The inverse of [print_line], used to state that what reaches standard
    output is exactly the sequence [encode] returned. *)

(** Characters that separate or close the items of a printed list. *)
Definition is_delim (c : ascii) : bool :=
  Ascii.eqb c "," || Ascii.eqb c " " || Ascii.eqb c "]".

Fixpoint all_chars (f : ascii -> bool) (s : string) : bool :=
  match s with
  | EmptyString => true
  | String c rest => f c && all_chars f rest
  end.

(** Splits the text after the opening bracket into its items: a comma ends
    an item, blanks are skipped, the closing bracket ends the list. *)
Fixpoint fields (cur : string) (s : string) : list string :=
  match s with
  | EmptyString => [cur]
  | String c rest =>
      if Ascii.eqb c "," then cur :: fields "" rest
      else if Ascii.eqb c " " then fields cur rest
      else if Ascii.eqb c "]" then [cur]
      else fields (cur ++ String c "") rest
  end.

Definition read_int (s : string) : option Z :=
  match NilEmpty.int_of_string s with
  | Some d => Some (Z.of_int d)
  | None => None
  end.

Fixpoint read_ints (l : list string) : option (list Z) :=
  match l with
  | [] => Some []
  | x :: rest =>
      match read_int x, read_ints rest with
      | Some z, Some zs => Some (z :: zs)
      | _, _ => None
      end
  end.

Definition read_line (s : string) : option (list Z) :=
  match s with
  | String c rest =>
      if Ascii.eqb c "[" then
        match rest with
        | String c' _ =>
            if Ascii.eqb c' "]" then Some [] else read_ints (fields "" rest)
        | EmptyString => None
        end
      else None
  | EmptyString => None
  end.

(** ** The collaborator's contract

    The sentences of the specification that describe the library rather
    than the driver, as predicates over a [Library].  The formats of the
    two files belong to the library, so they are parameters here. *)
Section Contract.

Variable L : Library.
Variable vocab_format merges_format : string -> Prop.

(** Both paths name existing files whose contents follow the expected
    formats. *)
Definition valid_files (os : OS) (vocab_file merges_file : string) : Prop :=
  exists cv cm,
    files os vocab_file = Some cv /\ files os merges_file = Some cm /\
    vocab_format cv /\ merges_format cm.

(** Modelled from the spec: the library is installed, so the import of
    [GPT2TokenizerFast] from [transformers] returns (the specification
    treats the collaborator as present). *)
Definition importable : Prop :=
  forall s, exists s',
    import_from L "transformers" "GPT2TokenizerFast" s = (Ok tt, s').

(** Modelled from the spec: the constructor of [GPT2TokenizerFast], absent
    from the sources, returns a handle when both files exist and are
    well-formed (initialize: inputs "assumed to exist and be well-formed
    according to the external collaborator's expected format"). *)
Definition accepts_valid_files : Prop :=
  forall os v m s,
    valid_files os v m -> exists h s', construct L os v m s = (Ok h, s').

(** Modelled from the spec: the constructor of [GPT2TokenizerFast], absent
    from the sources, raises when either path names no file ("any failure
    (missing file, malformed content) is surfaced by the external
    collaborator"). *)
Definition fails_on_missing_file : Prop :=
  forall os v m s,
    files os v = None \/ files os m = None ->
    exists e s', construct L os v m s = (Raise e, s').

(** Modelled from the spec: the constructor of [GPT2TokenizerFast], absent
    from the sources, raises when the vocabulary file exists but does not
    follow the expected format. *)
Definition fails_on_malformed_vocab : Prop :=
  forall os v m s cv,
    files os v = Some cv -> ~ vocab_format cv ->
    exists e s', construct L os v m s = (Raise e, s').

(** Modelled from the spec: the constructor of [GPT2TokenizerFast], absent
    from the sources, touches nothing of the process environment but the
    two files it is given ("the only resources touched are two read-only
    files, opened and released entirely within the external collaborator's
    construction call"). *)
Definition reads_only_given_files : Prop :=
  forall os os' v m s,
    files os v = files os' v -> files os m = files os' m ->
    construct L os v m s = construct L os' v m s.

(** A handle is one the constructor returned on valid files. *)
Definition initialized (h : Handle L) : Prop :=
  exists os v m s s',
    valid_files os v m /\ construct L os v m s = (Ok h, s').

(** Modelled from the spec: the method [encode] of [GPT2TokenizerFast],
    absent from the sources, returns on the sample text a non-empty
    sequence of non-negative integers when the handle comes from valid
    files (happy path of the testable properties). *)
Definition encodes_sample : Prop :=
  forall h s,
    initialized h ->
    exists a s',
      encode L h input_text s = (Ok a, s') /\
      a <> [] /\ Forall (fun i => 0 <= i) a.

End Contract.

(** ** A small concrete library

    A stand-in with the shape of the collaborator, on which the driver can
    be run: the import knows one name, the constructor wants both files to
    exist and the vocabulary to open with a brace, [encode] returns the
    character codes of the text.  The state counts the calls made. *)
Module Toy.

Definition vocab_ok (c : string) : bool := String.prefix "{" c.
Definition vocab_format (c : string) : Prop := vocab_ok c = true.
Definition merges_format (c : string) : Prop := True.

Definition toy_import (module_name name : string) (n : nat)
  : result string unit * nat :=
  if String.eqb module_name "transformers" && String.eqb name "GPT2TokenizerFast"
  then (Ok tt, S n) else (Raise "ImportError", S n).

Definition toy_construct (os : OS) (v m : string) (n : nat)
  : result string unit * nat :=
  match files os v, files os m with
  | Some cv, Some _ =>
      if vocab_ok cv then (Ok tt, S n) else (Raise "JSONDecodeError", S n)
  | _, _ => (Raise "FileNotFoundError", S n)
  end.

Definition toy_encode (h : unit) (text : string) (n : nat)
  : result string (list Z) * nat :=
  (Ok (map (fun c => Z.of_nat (nat_of_ascii c)) (list_ascii_of_string text)), S n).

Definition library : Library :=
  mkLibrary unit string nat toy_import toy_construct toy_encode.

Definition on_disk (entries : list (string * string)) (path : string)
  : option string :=
  match find (fun e => String.eqb (fst e) path) entries with
  | Some e => Some (snd e)
  | None => None
  end.

(** Both files where the script looks for them. *)
Definition os_ready : OS :=
  mkOS ["sample_bpe.py"] (fun _ => None) ""
       (on_disk [(vocab_file_arg, "{}"); (merges_file_arg, "#version: 0.2")]).

(** The same files, another command line, environment and input. *)
Definition os_ready_args : OS :=
  mkOS ["sample_bpe.py"; "--text"; "other"]
       (fun k => if String.eqb k "HOME" then Some "/root" else None) "typed"
       (on_disk [(merges_file_arg, "#version: 0.2"); (vocab_file_arg, "{}");
                 ("notes.txt", "x")]).

(** No merges file. *)
Definition os_no_merges : OS :=
  mkOS ["sample_bpe.py"] (fun _ => None) ""
       (on_disk [(vocab_file_arg, "{}")]).

(** A vocabulary file that is not in the expected format. *)
Definition os_bad_vocab : OS :=
  mkOS ["sample_bpe.py"] (fun _ => None) ""
       (on_disk [(vocab_file_arg, "not json"); (merges_file_arg, "")]).

(** The two files in the working directory, under their bare names. *)
Definition os_bare_names : OS :=
  mkOS ["sample_bpe.py"] (fun _ => None) ""
       (on_disk [("vocab.json", "{}"); ("merges.txt", "#version: 0.2")]).

End Toy.

(** The last path component and relativity of a path. *)
Fixpoint basename_from (cur : string) (s : string) : string :=
  match s with
  | EmptyString => cur
  | String c rest =>
      if Ascii.eqb c "/" then basename_from "" rest
      else basename_from (cur ++ String c "") rest
  end.

Definition basename (path : string) : string := basename_from "" path.

Definition is_relative (path : string) : bool := negb (String.prefix "/" path).

(** Everything the [Printed] events of a trace wrote, in order. *)
Fixpoint printed (t : list event) : string :=
  match t with
  | [] => ""
  | Printed line :: rest => line ++ printed rest
  | _ :: rest => printed rest
  end.

(** The script's operations in program order, [a] being what is printed. *)
Definition program (a : list Z) : list event :=
  [import_event; construct_event; encode_event; print_event a].

(** ** The characters of a printed list *)

Definition is_digit (c : ascii) : bool :=
  Ascii.eqb c "0" || Ascii.eqb c "1" || Ascii.eqb c "2" || Ascii.eqb c "3" ||
  Ascii.eqb c "4" || Ascii.eqb c "5" || Ascii.eqb c "6" || Ascii.eqb c "7" ||
  Ascii.eqb c "8" || Ascii.eqb c "9".

(** What [str] of a list of ints is made of: digits, the minus sign, the
    comma, the blank and the two brackets. *)
Definition is_list_char (c : ascii) : bool :=
  is_digit c || Ascii.eqb c "-" || Ascii.eqb c "," || Ascii.eqb c " " ||
  Ascii.eqb c "[" || Ascii.eqb c "]".

Definition is_newline (c : ascii) : bool := Ascii.eqb c (ascii_of_nat 10).

(** A library that is not installed: the import raises. *)
Definition not_installed : Library :=
  mkLibrary unit string nat
            (fun _ _ n => (Raise "ModuleNotFoundError", S n))
            Toy.toy_construct Toy.toy_encode.

(** * Properties of the driver *)

Example str_list_demo :
  print_line [15496; 11; 995; 0] = "[15496, 11, 995, 0]" ++ newline.
Proof. reflexivity. Qed.

Example str_list_signs : str_list [0; -5; 120] = "[0, -5, 120]".
Proof. reflexivity. Qed.

Example str_list_empty : print_line [] = "[]" ++ newline.
Proof. reflexivity. Qed.

Example read_line_demo :
  read_line ("[15496, 11, 995, 0]" ++ newline) = Some [15496; 11; 995; 0].
Proof. reflexivity. Qed.

Example toy_run_bad_vocab :
  python_main Toy.library Toy.os_bad_vocab 0%nat =
  mkProcess (L := Toy.library) 1 "" (Some "JSONDecodeError")
            [import_event; construct_event].
Proof. reflexivity. Qed.

Example toy_run :
  python_main Toy.library Toy.os_ready 0%nat =
  mkProcess 0 (print_line [72; 101; 108; 108; 111; 44; 32; 119; 111; 114; 108; 100; 33])
            None
            (program [72; 101; 108; 108; 111; 44; 32; 119; 111; 114; 108; 100; 33]).
Proof. reflexivity. Qed.

(** ** Every run is one of the four *)

Ltac run_script :=
  unfold python_main, sample_bpe, bind, from_import, GPT2TokenizerFast,
    tokenizer_encode, print, call, initial; cbn.

Lemma python_main_runs (L : Library) (os : OS) (s : LibState L) :
  runs L os s (python_main L os s).
Proof.
  run_script.
  destruct (import_from L "transformers" "GPT2TokenizerFast" s)
    as [[[]|e] s1] eqn:Hi; cbn.
  - destruct (construct L os vocab_file_arg merges_file_arg s1)
      as [[h|e] s2] eqn:Hc; cbn.
    + destruct (encode L h input_text s2) as [[a|e] s3] eqn:He; cbn.
      * eapply run_prints; eassumption.
      * eapply run_encode_raises; eassumption.
    + eapply run_construct_raises; eassumption.
  - eapply run_import_raises; eassumption.
Qed.

(** The library's answers fix the run: [runs] is a function. *)
Lemma runs_functional (L : Library) (os : OS) (s : LibState L) (p q : Process L) :
  runs L os s p -> runs L os s q -> p = q.
Proof.
  intros Hp Hq.
  destruct Hp; inversion Hq; subst; congruence.
Qed.

Lemma python_main_completes (L : Library) (os : OS) (s : LibState L) (a : list Z) :
  completes L os s a ->
  python_main L os s = mkProcess 0 (print_line a) None (program a).
Proof.
  intros (s1 & h & s2 & s3 & Hi & Hc & He).
  apply (runs_functional L os s); [apply python_main_runs|].
  eapply run_prints; eassumption.
Qed.

Lemma python_main_raised (L : Library) (os : OS) (s : LibState L)
      (ev : event) (e : Exn L) :
  raised_at L os s ev e ->
  exists before,
    python_main L os s = mkProcess 1 "" (Some e) (before ++ [ev])%list /\
    exists after, program [] = (before ++ ev :: after)%list.
Proof.
  intros Hr.
  destruct Hr.
  - exists []. split.
    + apply (runs_functional L os s); [apply python_main_runs|].
      eapply run_import_raises; eassumption.
    + eexists. reflexivity.
  - exists [import_event]. split.
    + apply (runs_functional L os s); [apply python_main_runs|].
      eapply run_construct_raises; eassumption.
    + eexists. reflexivity.
  - exists [import_event; construct_event]. split.
    + apply (runs_functional L os s); [apply python_main_runs|].
      eapply run_encode_raises; eassumption.
    + eexists. reflexivity.
Qed.

Lemma completes_not_raised (L : Library) (os : OS) (s : LibState L)
      (a : list Z) (ev : event) (e : Exn L) :
  completes L os s a -> raised_at L os s ev e -> False.
Proof.
  intros Hc Hr.
  apply python_main_completes in Hc.
  apply python_main_raised in Hr. destruct Hr as (before & Hr & _).
  rewrite Hc in Hr. discriminate.
Qed.

(** A run either completes or has a call that raised. *)
Lemma completes_or_raised (L : Library) (os : OS) (s : LibState L) :
  (exists a, completes L os s a) \/ (exists ev e, raised_at L os s ev e).
Proof.
  destruct (python_main_runs L os s).
  - right. do 2 eexists. eapply import_raised; eassumption.
  - right. do 2 eexists. eapply construct_raised; eassumption.
  - right. do 2 eexists. eapply encode_raised; eassumption.
  - left. exists a, s1, h, s2, s3. auto.
Qed.

Lemma program_NoDup (a : list Z) : NoDup (program a).
Proof.
  unfold program.
  repeat constructor; cbn; intuition discriminate.
Qed.

Lemma NoDup_prefix {A} (t rest : list A) : NoDup (t ++ rest)%list -> NoDup t.
Proof.
  induction t as [|x t IH]; cbn; intros H.
  - constructor.
  - inversion H; subst. constructor.
    + intros Hin. apply H2. apply in_or_app. now left.
    + auto.
Qed.

(** ** Failures *)

(** C7: whichever library call raises, the script does not recover: the
    process ends with that very exception reported, a non-zero exit status,
    nothing printed, and the failing call as the last operation performed;
    the operations performed are always an initial part of the fixed
    program, each at most once (no retry, no fallback); and the exit status
    is 0 exactly when no call raised. *)
Theorem failures_propagate_unhandled (L : Library) (os : OS) (s : LibState L) :
  (forall ev e,
      raised_at L os s ev e ->
      err (python_main L os s) = Some e /\
      exit_code (python_main L os s) <> 0 /\
      out (python_main L os s) = "" /\
      last (trace (python_main L os s)) import_event = ev) /\
  (exists a rest, program a = (trace (python_main L os s) ++ rest)%list) /\
  NoDup (trace (python_main L os s)) /\
  (exit_code (python_main L os s) = 0 <->
   ~ exists ev e, raised_at L os s ev e) /\
  (exit_code (python_main L os s) = 0 <-> err (python_main L os s) = None).
Proof.
  assert (Hprefix : exists a rest,
             program a = (trace (python_main L os s) ++ rest)%list).
  { destruct (python_main_runs L os s); cbn.
    - exists [], [construct_event; encode_event; print_event []]. reflexivity.
    - exists [], [encode_event; print_event []]. reflexivity.
    - exists [], [print_event []]. reflexivity.
    - exists a, []. reflexivity. }
  split; [|split; [exact Hprefix|split; [|split]]].
  - intros ev e Hr.
    destruct (python_main_raised L os s ev e Hr) as (before & -> & _); cbn.
    repeat split; try discriminate.
    apply last_last.
  - destruct Hprefix as (a & rest & Hp).
    apply (NoDup_prefix _ rest). rewrite <- Hp. apply program_NoDup.
  - split.
    + intros H0 (ev & e & Hr).
      destruct (python_main_raised L os s ev e Hr) as (before & Hm & _).
      rewrite Hm in H0. discriminate.
    + intros Hno.
      destruct (completes_or_raised L os s) as [[a Hc]|Hr]; [|contradiction].
      rewrite (python_main_completes L os s a Hc). reflexivity.
  - destruct (python_main_runs L os s); cbn; split; intros; congruence.
Qed.

Lemma failures_propagate_unhandled_witness :
  raised_at Toy.library Toy.os_no_merges 0%nat construct_event "FileNotFoundError" /\
  err (python_main Toy.library Toy.os_no_merges 0%nat) = Some "FileNotFoundError" /\
  exit_code (python_main Toy.library Toy.os_no_merges 0%nat) <> 0.
Proof.
  assert (H : raised_at Toy.library Toy.os_no_merges 0%nat construct_event
                        "FileNotFoundError").
  { eapply construct_raised; reflexivity. }
  split; [exact H|].
  destruct (failures_propagate_unhandled Toy.library Toy.os_no_merges 0%nat)
    as (Hf & _).
  destruct (Hf _ _ H) as (He & Hx & _).
  split; assumption.
Defined.

(** ** Output *)

Lemma append_empty_r (x : string) : x ++ "" = x.
Proof. induction x as [|c x IH]; cbn; [reflexivity|now rewrite IH]. Qed.

Lemma print_line_nonempty (a : list Z) : print_line a <> "".
Proof. unfold print_line, str_list. cbn. discriminate. Qed.

(** C10: standard output holds exactly what the [print] statement wrote;
    the trace has at most one [Printed] event and, when it has one, it is
    the last operation; output is non-empty exactly when the import, the
    constructor and [encode] all returned; a run that ends in an exception
    has printed nothing. *)
Theorem print_is_single_and_last (L : Library) (os : OS) (s : LibState L) :
  out (python_main L os s) = printed (trace (python_main L os s)) /\
  (length (filter is_print (trace (python_main L os s))) <= 1)%nat /\
  (forall ev, In ev (trace (python_main L os s)) -> is_print ev = true ->
              last (trace (python_main L os s)) import_event = ev) /\
  (out (python_main L os s) <> "" <-> exists a, completes L os s a) /\
  (forall a, completes L os s a ->
             out (python_main L os s) = print_line a /\
             err (python_main L os s) = None) /\
  (err (python_main L os s) <> None -> out (python_main L os s) = "").
Proof.
  destruct (completes_or_raised L os s) as [[a Hc]|(ev & e & Hr)].
  - pose proof (python_main_completes L os s a Hc) as Hm. rewrite Hm; cbn.
    split; [now rewrite append_empty_r|].
    split; [lia|].
    split; [intros ev [<-|[<-|[<-|[<-|[]]]]]; cbn; intros; congruence|].
    split; [split; [intros _; now exists a|intros _; apply print_line_nonempty]|].
    split; [|intros H; now contradiction H].
    intros a' Hc'.
    pose proof (python_main_completes L os s a' Hc') as Hm'.
    rewrite Hm in Hm'. now inversion Hm'.
  - assert (Hnc : forall a, ~ completes L os s a).
    { intros a Hc. exact (completes_not_raised L os s a ev e Hc Hr). }
    assert (Hcases :
              python_main L os s = mkProcess 1 "" (Some e) [import_event] \/
              python_main L os s =
                mkProcess 1 "" (Some e) [import_event; construct_event] \/
              python_main L os s =
                mkProcess 1 "" (Some e)
                          [import_event; construct_event; encode_event]).
    { destruct Hr.
      - left. apply (runs_functional L os s); [apply python_main_runs|].
        eapply run_import_raises; eassumption.
      - right; left. apply (runs_functional L os s); [apply python_main_runs|].
        eapply run_construct_raises; eassumption.
      - right; right. apply (runs_functional L os s); [apply python_main_runs|].
        eapply run_encode_raises; eassumption. }
    destruct Hcases as [-> | [-> | ->]]; cbn;
      (split; [reflexivity|]);
      (split; [lia|]);
      (split; [intros x Hin Hp; repeat (destruct Hin as [<-|Hin]; [discriminate Hp|]);
               contradiction|]);
      (split; [split; [intros H; now contradiction H
                      |intros [a Hc]; now apply Hnc in Hc]|]);
      (split; [intros a Hc; now apply Hnc in Hc|reflexivity]).
Qed.

Lemma print_is_single_and_last_witness :
  out (python_main Toy.library Toy.os_ready 0%nat) <> "" /\
  exists a, completes Toy.library Toy.os_ready 0%nat a.
Proof.
  destruct (print_is_single_and_last Toy.library Toy.os_ready 0%nat)
    as (_ & _ & _ & Hiff & _).
  assert (Hout : out (python_main Toy.library Toy.os_ready 0%nat) <> "")
    by (vm_compute; discriminate).
  split; [exact Hout|].
  apply Hiff. exact Hout.
Defined.

(** ** What is printed can be read back *)

Lemma append_assoc (x y z : string) : (x ++ y) ++ z = x ++ (y ++ z).
Proof. induction x as [|c x IH]; cbn; [reflexivity|now rewrite IH]. Qed.

Lemma uint_chars_plain (d : Decimal.uint) :
  all_chars (fun c => negb (is_delim c)) (NilEmpty.string_of_uint d) = true.
Proof. induction d; cbn; auto. Qed.

Lemma str_int_plain (z : Z) :
  all_chars (fun c => negb (is_delim c)) (str_int z) = true.
Proof.
  unfold str_int. destruct (Z.to_int z) as [d|d]; cbn.
  - apply uint_chars_plain.
  - apply uint_chars_plain.
Qed.

Lemma read_int_str_int (z : Z) : read_int (str_int z) = Some z.
Proof.
  unfold read_int, str_int. rewrite NilEmpty.isi. now rewrite DecimalZ.of_to.
Qed.

Lemma str_int_nonempty (z : Z) : str_int z <> "".
Proof.
  intros Hz. pose proof (read_int_str_int z) as Hr.
  rewrite Hz in Hr. cbn in Hr. injection Hr as <-.
  discriminate Hz.
Qed.

(** Plain characters accumulate into the current item. *)
Lemma fields_plain (x rest cur : string) :
  all_chars (fun c => negb (is_delim c)) x = true ->
  fields cur (x ++ rest) = fields (cur ++ x) rest.
Proof.
  revert cur. induction x as [|c x IH]; intros cur Hx; cbn in *.
  - now rewrite append_empty_r.
  - apply andb_prop in Hx. destruct Hx as [Hc Hx].
    unfold is_delim in Hc.
    apply negb_true_iff in Hc.
    apply orb_false_elim in Hc. destruct Hc as [Hc Hc3].
    apply orb_false_elim in Hc. destruct Hc as [Hc1 Hc2].
    rewrite Hc1, Hc2, Hc3.
    rewrite (IH _ Hx). now rewrite append_assoc.
Qed.

Lemma fields_join (z : Z) (a : list Z) (tail : string) :
  fields "" (join ", " (map str_int (z :: a)) ++ "]" ++ tail) =
  map str_int (z :: a).
Proof.
  revert z. induction a as [|z' a IH]; intros z.
  - cbn [map join].
    rewrite (fields_plain _ _ _ (str_int_plain z)). reflexivity.
  - change (join ", " (map str_int (z :: z' :: a)))
      with (str_int z ++ ", " ++ join ", " (map str_int (z' :: a))).
    rewrite !append_assoc.
    rewrite (fields_plain _ _ _ (str_int_plain z)).
    cbn [append fields Ascii.eqb Bool.eqb].
    rewrite IH. reflexivity.
Qed.

Lemma read_ints_map (a : list Z) : read_ints (map str_int a) = Some a.
Proof.
  induction a as [|z a IH]; cbn; [reflexivity|].
  now rewrite read_int_str_int, IH.
Qed.

(** Reading back the printed line gives the list that was printed. *)
Lemma read_line_print_line (a : list Z) : read_line (print_line a) = Some a.
Proof.
  destruct a as [|z a].
  - reflexivity.
  - unfold print_line, str_list.
    cbn [append read_line Ascii.eqb Bool.eqb].
    rewrite append_assoc.
    pose proof (fields_join z a newline) as Hf.
    pose proof (str_int_plain z) as Hp.
    pose proof (str_int_nonempty z) as Hn.
    destruct a as [|z' a].
    + cbn [map join] in *.
      destruct (str_int z) as [|c x] eqn:Hz; [congruence|].
      cbn [append] in *.
      cbn [all_chars] in Hp. apply andb_prop in Hp. destruct Hp as [Hc _].
      unfold is_delim in Hc. apply negb_true_iff in Hc.
      apply orb_false_elim in Hc. destruct Hc as [_ Hc3].
      rewrite Hc3. rewrite Hf. cbn [read_ints].
      rewrite <- Hz, read_int_str_int. reflexivity.
    + change (join ", " (map str_int (z :: z' :: a)))
        with (str_int z ++ ", " ++ join ", " (map str_int (z' :: a))) in *.
      destruct (str_int z) as [|c x] eqn:Hz; [congruence|].
      cbn [append] in *.
      cbn [all_chars] in Hp. apply andb_prop in Hp. destruct Hp as [Hc _].
      unfold is_delim in Hc. apply negb_true_iff in Hc.
      apply orb_false_elim in Hc. destruct Hc as [_ Hc3].
      rewrite Hc3. rewrite Hf.
      apply read_ints_map.
Qed.

(** ** Failing construction *)

(** A run in which the constructor cannot return: nothing is printed, the
    exit status is not 0, [encode] is never reached, and when the import
    returned, the reported exception is the constructor's. *)
Lemma construct_fails_run (L : Library) (os : OS) (s : LibState L) :
  (forall s1, exists e s2,
      construct L os vocab_file_arg merges_file_arg s1 = (Raise e, s2)) ->
  out (python_main L os s) = "" /\
  exit_code (python_main L os s) <> 0 /\
  (exists e, err (python_main L os s) = Some e) /\
  ~ In encode_event (trace (python_main L os s)) /\
  (forall s1,
      import_from L "transformers" "GPT2TokenizerFast" s = (Ok tt, s1) ->
      exists e s2,
        construct L os vocab_file_arg merges_file_arg s1 = (Raise e, s2) /\
        err (python_main L os s) = Some e /\
        trace (python_main L os s) = [import_event; construct_event]).
Proof.
  intros Hfail.
  destruct (import_from L "transformers" "GPT2TokenizerFast" s)
    as [[[]|e] s1] eqn:Hi.
  - destruct (Hfail s1) as (e & s2 & Hc).
    rewrite (runs_functional L os s _ _ (python_main_runs L os s)
               (run_construct_raises L os s s1 e s2 Hi Hc)); cbn.
    split; [reflexivity|]. split; [discriminate|].
    split; [now exists e|].
    split; [intros [H|[H|[]]]; discriminate H|].
    intros s1' Heq. injection Heq as <-.
    exists e, s2. auto.
  - rewrite (runs_functional L os s _ _ (python_main_runs L os s)
               (run_import_raises L os s e s1 Hi)); cbn.
    split; [reflexivity|]. split; [discriminate|].
    split; [now exists e|].
    split; [intros [H|[]]; discriminate H|].
    intros s1' Heq. discriminate Heq.
Qed.

(** C3: with a constructor that raises when a path it is given names no
    file, a run in which either "../dataset/BPE/vocab.json" or
    "../dataset/BPE/merges.txt" is missing fails at construction (the
    constructor's exception is the one reported, [encode] is never
    called, the exit status is non-zero) and prints nothing. *)
Theorem missing_file_prints_nothing
  (L : Library) (Hmiss : fails_on_missing_file L)
  (os : OS) (s : LibState L)
  (Hfile : files os vocab_file_arg = None \/ files os merges_file_arg = None) :
  out (python_main L os s) = "" /\
  exit_code (python_main L os s) <> 0 /\
  (exists e, err (python_main L os s) = Some e) /\
  ~ In encode_event (trace (python_main L os s)) /\
  (forall s1,
      import_from L "transformers" "GPT2TokenizerFast" s = (Ok tt, s1) ->
      exists e s2,
        construct L os vocab_file_arg merges_file_arg s1 = (Raise e, s2) /\
        err (python_main L os s) = Some e /\
        trace (python_main L os s) = [import_event; construct_event]).
Proof.
  apply construct_fails_run.
  intros s1. apply Hmiss. exact Hfile.
Qed.

(** C4: with a constructor that raises on a vocabulary file that exists
    but does not follow the expected format, such a run fails at
    construction and prints nothing. *)
Theorem malformed_vocab_prints_nothing
  (L : Library) (vocab_format : string -> Prop)
  (Hbad : fails_on_malformed_vocab L vocab_format)
  (os : OS) (s : LibState L) (content : string)
  (Hfile : files os vocab_file_arg = Some content)
  (Hformat : ~ vocab_format content) :
  out (python_main L os s) = "" /\
  exit_code (python_main L os s) <> 0 /\
  (exists e, err (python_main L os s) = Some e) /\
  ~ In encode_event (trace (python_main L os s)) /\
  (forall s1,
      import_from L "transformers" "GPT2TokenizerFast" s = (Ok tt, s1) ->
      exists e s2,
        construct L os vocab_file_arg merges_file_arg s1 = (Raise e, s2) /\
        err (python_main L os s) = Some e /\
        trace (python_main L os s) = [import_event; construct_event]).
Proof.
  apply construct_fails_run.
  intros s1. exact (Hbad os _ _ s1 content Hfile Hformat).
Qed.

(** The stand-in library honours the contract. *)
Lemma toy_fails_on_missing_file : fails_on_missing_file Toy.library.
Proof.
  intros os v m n [Hv|Hm]; cbn; unfold Toy.toy_construct.
  - rewrite Hv. now exists "FileNotFoundError", (S n).
  - rewrite Hm. destruct (files os v); now exists "FileNotFoundError", (S n).
Qed.

Lemma toy_fails_on_malformed_vocab :
  fails_on_malformed_vocab Toy.library Toy.vocab_format.
Proof.
  intros os v m n cv Hv Hbad; cbn; unfold Toy.toy_construct.
  rewrite Hv. unfold Toy.vocab_format in Hbad.
  destruct (Toy.vocab_ok cv); [now contradiction Hbad|].
  destruct (files os m); [now exists "JSONDecodeError", (S n)|].
  now exists "FileNotFoundError", (S n).
Qed.

Lemma toy_accepts_valid_files :
  accepts_valid_files Toy.library Toy.vocab_format Toy.merges_format.
Proof.
  intros os v m n (cv & cm & Hv & Hm & Hf & _); cbn; unfold Toy.toy_construct.
  rewrite Hv, Hm. unfold Toy.vocab_format in Hf. rewrite Hf.
  now exists tt, (S n).
Qed.

Lemma toy_importable : importable Toy.library.
Proof. intros n. now exists (S n). Qed.

Lemma toy_reads_only_given_files : reads_only_given_files Toy.library.
Proof.
  intros os os' v m n Hv Hm; cbn; unfold Toy.toy_construct.
  now rewrite Hv, Hm.
Qed.

Lemma toy_encodes_sample :
  encodes_sample Toy.library Toy.vocab_format Toy.merges_format.
Proof.
  intros h n _. eexists. exists (S n).
  split; [reflexivity|]. split; [discriminate|].
  repeat constructor; discriminate.
Qed.

Lemma missing_file_prints_nothing_witness :
  (files Toy.os_no_merges vocab_file_arg = None \/
   files Toy.os_no_merges merges_file_arg = None) /\
  out (python_main Toy.library Toy.os_no_merges 0%nat) = "".
Proof.
  assert (H : files Toy.os_no_merges vocab_file_arg = None \/
              files Toy.os_no_merges merges_file_arg = None)
    by (right; reflexivity).
  split; [exact H|].
  exact (proj1 (missing_file_prints_nothing Toy.library
                  toy_fails_on_missing_file Toy.os_no_merges 0%nat H)).
Defined.

Lemma malformed_vocab_prints_nothing_witness :
  files Toy.os_bad_vocab vocab_file_arg = Some "not json" /\
  ~ Toy.vocab_format "not json" /\
  out (python_main Toy.library Toy.os_bad_vocab 0%nat) = "".
Proof.
  assert (Hf : files Toy.os_bad_vocab vocab_file_arg = Some "not json")
    by reflexivity.
  assert (Hb : ~ Toy.vocab_format "not json")
    by (unfold Toy.vocab_format; vm_compute; discriminate).
  split; [exact Hf|]. split; [exact Hb|].
  exact (proj1 (malformed_vocab_prints_nothing Toy.library Toy.vocab_format
                  toy_fails_on_malformed_vocab Toy.os_bad_vocab 0%nat
                  "not json" Hf Hb)).
Defined.

(** ** The environment reaches the run only through the constructor *)

Lemma run_depends_on_constructor_only
      (L : Library) (s : LibState L) (os1 os2 : OS) :
  (forall s1,
      construct L os1 vocab_file_arg merges_file_arg s1 =
      construct L os2 vocab_file_arg merges_file_arg s1) ->
  python_main L os1 s = python_main L os2 s.
Proof.
  intros Hsame. run_script.
  destruct (import_from L "transformers" "GPT2TokenizerFast" s)
    as [[[]|e] s1]; cbn; [|reflexivity].
  now rewrite (Hsame s1).
Qed.

(** C8: the script consults neither the command line, nor the environment
    variables, nor standard input: with a constructor that reads only the
    files it is given, two invocations that find the same contents at
    "../dataset/BPE/vocab.json" and "../dataset/BPE/merges.txt" are the same
    process (same operations, same output, same exit status), whatever
    their arguments, environment and input are. *)
Theorem same_files_same_run
  (L : Library) (Hread : reads_only_given_files L) (s : LibState L)
  (os1 os2 : OS)
  (Hvocab : files os1 vocab_file_arg = files os2 vocab_file_arg)
  (Hmerges : files os1 merges_file_arg = files os2 merges_file_arg) :
  python_main L os1 s = python_main L os2 s /\
  (forall args env input,
      python_main L (mkOS args env input (files os1)) s = python_main L os1 s).
Proof.
  split.
  - apply run_depends_on_constructor_only.
    intros s1. now apply Hread.
  - intros args env input.
    apply run_depends_on_constructor_only.
    intros s1. now apply Hread.
Qed.

Lemma same_files_same_run_witness :
  files Toy.os_ready vocab_file_arg = files Toy.os_ready_args vocab_file_arg /\
  files Toy.os_ready merges_file_arg = files Toy.os_ready_args merges_file_arg /\
  argv Toy.os_ready <> argv Toy.os_ready_args /\
  python_main Toy.library Toy.os_ready 0%nat =
  python_main Toy.library Toy.os_ready_args 0%nat.
Proof.
  assert (Hv : files Toy.os_ready vocab_file_arg =
               files Toy.os_ready_args vocab_file_arg) by reflexivity.
  assert (Hm : files Toy.os_ready merges_file_arg =
               files Toy.os_ready_args merges_file_arg) by reflexivity.
  split; [exact Hv|]. split; [exact Hm|]. split; [discriminate|].
  exact (proj1 (same_files_same_run Toy.library toy_reads_only_given_files
                  0%nat Toy.os_ready Toy.os_ready_args Hv Hm)).
Defined.

(** ** The happy path *)

(** C1: with the library installed, a constructor that accepts valid files
    and reads only the files it is given, and an [encode] that returns a
    non-empty sequence of non-negative ids on the sample text, a run on
    valid vocabulary and merges files completes with exit status 0;
    [encode] returned a non-empty sequence [a] of non-negative integers;
    standard output is exactly the printed form of [a], from which [a] can
    be read back in order; and any other run that finds the same two file
    contents prints the same. *)
Theorem happy_path_prints_encoded_sequence
  (L : Library) (vocab_format merges_format : string -> Prop)
  (Himport : importable L)
  (Hctor : accepts_valid_files L vocab_format merges_format)
  (Hencode : encodes_sample L vocab_format merges_format)
  (Hread : reads_only_given_files L)
  (os : OS) (s : LibState L)
  (Hfiles : valid_files vocab_format merges_format os
                        vocab_file_arg merges_file_arg) :
  exists a,
    completes L os s a /\
    a <> [] /\ Forall (fun i => 0 <= i) a /\
    python_main L os s = mkProcess 0 (print_line a) None (program a) /\
    read_line (out (python_main L os s)) = Some a /\
    (forall os',
        files os' vocab_file_arg = files os vocab_file_arg ->
        files os' merges_file_arg = files os merges_file_arg ->
        out (python_main L os' s) = print_line a).
Proof.
  destruct (Himport s) as (s1 & Hi).
  destruct (Hctor os _ _ s1 Hfiles) as (h & s2 & Hc).
  assert (Hinit : initialized L vocab_format merges_format h).
  { exists os, vocab_file_arg, merges_file_arg, s1, s2. auto. }
  destruct (Hencode h s2 Hinit) as (a & s3 & He & Hne & Hpos).
  assert (Hcompl : completes L os s a).
  { exists s1, h, s2, s3. auto. }
  pose proof (python_main_completes L os s a Hcompl) as Hrun.
  exists a.
  split; [exact Hcompl|]. split; [exact Hne|]. split; [exact Hpos|].
  split; [exact Hrun|].
  split; [rewrite Hrun; apply read_line_print_line|].
  intros os' Hv Hm.
  rewrite (run_depends_on_constructor_only L s os' os).
  - now rewrite Hrun.
  - intros s'. now apply Hread.
Qed.

Lemma toy_os_ready_valid :
  valid_files Toy.vocab_format Toy.merges_format Toy.os_ready
              vocab_file_arg merges_file_arg.
Proof.
  exists "{}", "#version: 0.2".
  split; [reflexivity|]. split; [reflexivity|].
  split; [reflexivity|exact I].
Qed.

Lemma happy_path_prints_encoded_sequence_witness :
  valid_files Toy.vocab_format Toy.merges_format Toy.os_ready
              vocab_file_arg merges_file_arg /\
  exists a,
    a <> [] /\
    python_main Toy.library Toy.os_ready 0%nat =
    mkProcess 0 (print_line a) None (program a).
Proof.
  split; [exact toy_os_ready_valid|].
  destruct (happy_path_prints_encoded_sequence
              Toy.library Toy.vocab_format Toy.merges_format
              toy_importable toy_accepts_valid_files toy_encodes_sample
              toy_reads_only_given_files Toy.os_ready 0%nat toy_os_ready_valid)
    as (a & _ & Hne & _ & Hrun & _).
  exists a. split; assumption.
Defined.

(** ** The two paths *)

(** C9, as stated, fails: the constructor is not called on the bare names
    "vocab.json" and "merges.txt".  On a run where both files are in
    place the call recorded is the one on the dataset paths, and on a run
    where the two files sit in the working directory under their bare
    names the constructor finds nothing. *)
Lemma bare_names_are_not_the_paths :
  In (Constructed "../dataset/BPE/vocab.json" "../dataset/BPE/merges.txt")
     (trace (python_main Toy.library Toy.os_ready 0%nat)) /\
  ~ In (Constructed "vocab.json" "merges.txt")
       (trace (python_main Toy.library Toy.os_ready 0%nat)) /\
  files Toy.os_bare_names "vocab.json" = Some "{}" /\
  files Toy.os_bare_names "merges.txt" = Some "#version: 0.2" /\
  err (python_main Toy.library Toy.os_bare_names 0%nat) = Some "FileNotFoundError" /\
  out (python_main Toy.library Toy.os_bare_names 0%nat) = "".
Proof.
  split; [cbn; auto|].
  split.
  - cbn. intros [H|[H|[H|[H|[]]]]]; discriminate H.
  - repeat split; reflexivity.
Qed.

(** C9, amended: the two paths passed to the constructor, as vocabulary
    path and merges path in that order, are "../dataset/BPE/vocab.json"
    and "../dataset/BPE/merges.txt": relative paths whose last components
    are "vocab.json" and "merges.txt".  Every constructor call of a run has
    these arguments, and the call is made whenever the import returns. *)
Theorem constructor_receives_dataset_paths
  (L : Library) (os : OS) (s : LibState L) :
  (forall v m,
      In (Constructed v m) (trace (python_main L os s)) ->
      v = "../dataset/BPE/vocab.json" /\ m = "../dataset/BPE/merges.txt") /\
  (forall s1,
      import_from L "transformers" "GPT2TokenizerFast" s = (Ok tt, s1) ->
      In (Constructed "../dataset/BPE/vocab.json" "../dataset/BPE/merges.txt")
         (trace (python_main L os s))) /\
  is_relative vocab_file_arg = true /\
  is_relative merges_file_arg = true /\
  basename vocab_file_arg = "vocab.json" /\
  basename merges_file_arg = "merges.txt".
Proof.
  split; [|split; [|repeat split; reflexivity]].
  - intros v m Hin.
    destruct (python_main_runs L os s); cbn in Hin;
      repeat (destruct Hin as [Hin|Hin];
              [try discriminate Hin; injection Hin as <- <-; split; reflexivity|]);
      contradiction.
  - intros s1 Hi.
    destruct (python_main_runs L os s); cbn; try congruence; auto.
Qed.

Lemma constructor_receives_dataset_paths_witness :
  import_from Toy.library "transformers" "GPT2TokenizerFast" 0%nat = (Ok tt, 1%nat) /\
  In (Constructed "../dataset/BPE/vocab.json" "../dataset/BPE/merges.txt")
     (trace (python_main Toy.library Toy.os_no_merges 0%nat)).
Proof.
  assert (Hi : import_from Toy.library "transformers" "GPT2TokenizerFast" 0%nat
               = (Ok tt, 1%nat)) by reflexivity.
  split; [exact Hi|].
  destruct (constructor_receives_dataset_paths Toy.library Toy.os_no_merges 0%nat)
    as (_ & Hcall & _).
  exact (Hcall _ Hi).
Defined.

(** * Further properties of the driver *)

(** ** The output identifies the sequence *)

(** X1: two completed runs, of any libraries in any environments, that
    wrote the same standard output printed the same sequence of ids: the
    printed form loses nothing (no id merged, dropped or reordered). *)
Theorem output_identifies_sequence
  (L1 L2 : Library) (os1 os2 : OS) (s1 : LibState L1) (s2 : LibState L2)
  (a b : list Z)
  (Ha : completes L1 os1 s1 a) (Hb : completes L2 os2 s2 b)
  (Hout : out (python_main L1 os1 s1) = out (python_main L2 os2 s2)) :
  a = b.
Proof.
  rewrite (python_main_completes L1 os1 s1 a Ha) in Hout.
  rewrite (python_main_completes L2 os2 s2 b Hb) in Hout.
  cbn [out] in Hout.
  assert (Hread : read_line (print_line a) = read_line (print_line b))
    by now rewrite Hout.
  rewrite !read_line_print_line in Hread.
  now injection Hread.
Qed.

Lemma toy_completes_ready :
  completes Toy.library Toy.os_ready 0%nat
            [72; 101; 108; 108; 111; 44; 32; 119; 111; 114; 108; 100; 33].
Proof. exists 1%nat, tt, 2%nat, 3%nat. repeat split. Qed.

Lemma toy_completes_ready_args :
  completes Toy.library Toy.os_ready_args 0%nat
            [72; 101; 108; 108; 111; 44; 32; 119; 111; 114; 108; 100; 33].
Proof. exists 1%nat, tt, 2%nat, 3%nat. repeat split. Qed.

Lemma output_identifies_sequence_witness :
  out (python_main Toy.library Toy.os_ready 0%nat) =
  out (python_main Toy.library Toy.os_ready_args 0%nat) /\
  [72; 101; 108; 108; 111; 44; 32; 119; 111; 114; 108; 100; 33] =
  [72; 101; 108; 108; 111; 44; 32; 119; 111; 114; 108; 100; 33].
Proof.
  assert (Hout : out (python_main Toy.library Toy.os_ready 0%nat) =
                 out (python_main Toy.library Toy.os_ready_args 0%nat))
    by reflexivity.
  split; [exact Hout|].
  exact (output_identifies_sequence Toy.library Toy.library
           Toy.os_ready Toy.os_ready_args 0%nat 0%nat _ _
           toy_completes_ready toy_completes_ready_args Hout).
Defined.

(** ** The output is one line *)

Lemma all_chars_app (f : ascii -> bool) (x y : string) :
  all_chars f (x ++ y) = all_chars f x && all_chars f y.
Proof.
  induction x as [|c x IH]; cbn; [reflexivity|].
  now rewrite IH, andb_assoc.
Qed.

Lemma all_chars_impl (f g : ascii -> bool) (x : string) :
  (forall c, f c = true -> g c = true) ->
  all_chars f x = true -> all_chars g x = true.
Proof.
  intros Hfg. induction x as [|c x IH]; cbn; [reflexivity|].
  intros H. apply andb_prop in H. destruct H as [Hc Hx].
  now rewrite (Hfg c Hc), (IH Hx).
Qed.

Lemma uint_list_chars (d : Decimal.uint) :
  all_chars is_list_char (NilEmpty.string_of_uint d) = true.
Proof. induction d; cbn; auto. Qed.

Lemma str_int_list_chars (z : Z) : all_chars is_list_char (str_int z) = true.
Proof.
  unfold str_int. destruct (Z.to_int z) as [d|d]; cbn; apply uint_list_chars.
Qed.

Lemma join_list_chars (a : list Z) :
  all_chars is_list_char (join ", " (map str_int a)) = true.
Proof.
  induction a as [|z a IH]; [reflexivity|].
  destruct a as [|z' a].
  - cbn [map join]. apply str_int_list_chars.
  - change (join ", " (map str_int (z :: z' :: a)))
      with (str_int z ++ ", " ++ join ", " (map str_int (z' :: a))).
    rewrite !all_chars_app, str_int_list_chars, IH. reflexivity.
Qed.

Lemma str_list_chars (a : list Z) : all_chars is_list_char (str_list a) = true.
Proof.
  unfold str_list. rewrite !all_chars_app, join_list_chars. reflexivity.
Qed.

Lemma list_char_not_newline (c : ascii) :
  is_list_char c = true -> negb (is_newline c) = true.
Proof.
  unfold is_newline.
  destruct (Ascii.eqb_spec c (ascii_of_nat 10)) as [->|_]; [|reflexivity].
  cbn. discriminate.
Qed.

(** X2: whatever the library answers, standard output is either empty or
    exactly one line: the printed list, made only of digits, minus signs,
    commas, blanks and the two brackets, with its first character an
    opening bracket, followed by a single newline that ends the output.
    The second case is the one where the run completed. *)
Theorem output_is_one_line (L : Library) (os : OS) (s : LibState L) :
  out (python_main L os s) = "" \/
  exists a,
    completes L os s a /\
    out (python_main L os s) = str_list a ++ newline /\
    all_chars is_list_char (str_list a) = true /\
    all_chars (fun c => negb (is_newline c)) (str_list a) = true /\
    String.prefix "[" (str_list a) = true.
Proof.
  destruct (completes_or_raised L os s) as [[a Hc]|(ev & e & Hr)].
  - right. exists a.
    split; [exact Hc|].
    split; [now rewrite (python_main_completes L os s a Hc)|].
    split; [apply str_list_chars|].
    split; [|unfold str_list; cbn;
              now destruct (join ", " (map str_int a) ++ "]")].
    apply (all_chars_impl is_list_char); [exact list_char_not_newline|].
    apply str_list_chars.
  - left.
    destruct (python_main_raised L os s ev e Hr) as (before & -> & _).
    reflexivity.
Qed.

(** ** The call to [encode] *)

(** X3: [encode] is called only on the literal text "Hello, world!", and
    only in a run where the import and the constructor both returned;
    conversely, whenever both returned, the call is made.  No file content
    and no part of the environment reaches the text. *)
Theorem encode_called_on_literal_after_construction
  (L : Library) (os : OS) (s : LibState L) :
  (forall t,
      In (Encoded t) (trace (python_main L os s)) ->
      t = "Hello, world!" /\
      exists s1 h s2,
        import_from L "transformers" "GPT2TokenizerFast" s = (Ok tt, s1) /\
        construct L os vocab_file_arg merges_file_arg s1 = (Ok h, s2)) /\
  (forall s1 h s2,
      import_from L "transformers" "GPT2TokenizerFast" s = (Ok tt, s1) ->
      construct L os vocab_file_arg merges_file_arg s1 = (Ok h, s2) ->
      In (Encoded "Hello, world!") (trace (python_main L os s))).
Proof.
  split.
  - intros t Hin.
    destruct (python_main_runs L os s) as [e s1 Hi|s1 e s2 Hi Hc
                                          |s1 h s2 e s3 Hi Hc He
                                          |s1 h s2 a s3 Hi Hc He];
      cbn in Hin.
    + destruct Hin as [Hin|[]]. discriminate Hin.
    + destruct Hin as [Hin|[Hin|[]]]; discriminate Hin.
    + destruct Hin as [Hin|[Hin|[Hin|[]]]]; try discriminate Hin.
      injection Hin as <-. split; [reflexivity|]. now exists s1, h, s2.
    + destruct Hin as [Hin|[Hin|[Hin|[Hin|[]]]]]; try discriminate Hin.
      injection Hin as <-. split; [reflexivity|]. now exists s1, h, s2.
  - intros s1 h s2 Hi Hc.
    destruct (encode L h input_text s2) as [[a|e] s3] eqn:He.
    + rewrite (runs_functional L os s _ _ (python_main_runs L os s)
                 (run_prints L os s s1 h s2 a s3 Hi Hc He)).
      cbn. auto.
    + rewrite (runs_functional L os s _ _ (python_main_runs L os s)
                 (run_encode_raises L os s s1 h s2 e s3 Hi Hc He)).
      cbn. auto.
Qed.

Lemma encode_called_on_literal_after_construction_witness :
  import_from Toy.library "transformers" "GPT2TokenizerFast" 0%nat
  = (Ok tt, 1%nat) /\
  construct Toy.library Toy.os_ready vocab_file_arg merges_file_arg 1%nat
  = (Ok tt, 2%nat) /\
  In (Encoded "Hello, world!") (trace (python_main Toy.library Toy.os_ready 0%nat)).
Proof.
  assert (Hi : import_from Toy.library "transformers" "GPT2TokenizerFast" 0%nat
               = (Ok tt, 1%nat)) by reflexivity.
  assert (Hc : construct Toy.library Toy.os_ready vocab_file_arg
                         merges_file_arg 1%nat = (Ok tt, 2%nat)) by reflexivity.
  split; [exact Hi|]. split; [exact Hc|].
  exact (proj2 (encode_called_on_literal_after_construction
                  Toy.library Toy.os_ready 0%nat) _ _ _ Hi Hc).
Defined.

(** ** A failing import *)

(** X4: the import of [GPT2TokenizerFast] from [transformers] is the first
    operation of every run; when it raises, the constructor is never
    called, so the outcome is the same in every environment: that
    exception reported, exit status 1, nothing printed, whether or not
    the two files exist. *)
Theorem import_failure_precedes_file_access
  (L : Library) (s : LibState L) :
  (forall os, exists rest,
      trace (python_main L os s)
      = Imported "transformers" "GPT2TokenizerFast" :: rest) /\
  (forall e s1,
      import_from L "transformers" "GPT2TokenizerFast" s = (Raise e, s1) ->
      forall os,
        python_main L os s =
        mkProcess 1 "" (Some e) [Imported "transformers" "GPT2TokenizerFast"] /\
        (forall v m, ~ In (Constructed v m) (trace (python_main L os s)))).
Proof.
  split.
  - intros os. destruct (python_main_runs L os s); cbn; eexists; reflexivity.
  - intros e s1 Hi os.
    rewrite (runs_functional L os s _ _ (python_main_runs L os s)
               (run_import_raises L os s e s1 Hi)).
    split; [reflexivity|].
    cbn. intros v m [H|[]]. discriminate H.
Qed.

Lemma import_failure_precedes_file_access_witness :
  import_from not_installed "transformers" "GPT2TokenizerFast" 0%nat
  = (Raise "ModuleNotFoundError", 1%nat) /\
  python_main not_installed Toy.os_ready 0%nat =
  python_main not_installed Toy.os_no_merges 0%nat.
Proof.
  assert (Hi : import_from not_installed "transformers" "GPT2TokenizerFast" 0%nat
               = (Raise "ModuleNotFoundError", 1%nat)) by reflexivity.
  split; [exact Hi|].
  destruct (import_failure_precedes_file_access not_installed 0%nat)
    as (_ & Hfail).
  rewrite (proj1 (Hfail _ _ Hi Toy.os_ready)).
  rewrite (proj1 (Hfail _ _ Hi Toy.os_no_merges)).
  reflexivity.
Defined.
